(** * Rufus AI landing page: the element tree returned by [App]

    The repository's one component, [App] in [src/App.tsx], takes no
    arguments and returns a fixed JSX tree.  This development embeds that
    tree as a rose tree of elements and text nodes, keeps the prop names the
    source writes ([className], [aria-label], ...), and proves the
    structural properties of the page over it. *)

From Stdlib Require Import String Ascii List Bool Arith Lia.
Import ListNotations.
Local Open Scope string_scope.

(** ** Element trees *)

Module Dom.

(** A JSX prop with a string literal value, as every prop of the source is. *)
Definition prop : Type := (string * string)%type.

Unset Elimination Schemes.

(** A rendered node: a run of text, or an element with its tag, its props
    in source order, and its children in source order. *)
Inductive node : Type :=
| Text (s : string)
| Elem (tag : string) (props : list prop) (children : list node).

Set Elimination Schemes.

(** Induction over a node whose children all satisfy the property. *)
Section node_induction.
Variable P : node -> Prop.
Hypothesis P_text : forall s, P (Text s).
Hypothesis P_elem :
  forall tag props children, Forall P children -> P (Elem tag props children).

Fixpoint node_ind (n : node) : P n :=
  match n with
  | Text s => P_text s
  | Elem tag props children =>
      P_elem tag props children
        ((fix all (l : list node) : Forall P l :=
            match l with
            | [] => Forall_nil P
            | c :: l' => Forall_cons c (node_ind c) (all l')
            end) children)
  end.
End node_induction.

Definition tag_of (n : node) : option string :=
  match n with
  | Text _ => None
  | Elem tag _ _ => Some tag
  end.

Definition props_of (n : node) : list prop :=
  match n with
  | Text _ => []
  | Elem _ props _ => props
  end.

Definition children_of (n : node) : list node :=
  match n with
  | Text _ => []
  | Elem _ _ children => children
  end.

(** The value of the first prop called [name]. *)
Fixpoint lookup (name : string) (ps : list prop) : option string :=
  match ps with
  | [] => None
  | (k, v) :: ps' => if String.eqb k name then Some v else lookup name ps'
  end.

Definition attr (name : string) (n : node) : option string :=
  lookup name (props_of n).

Definition has_tag (t : string) (n : node) : bool :=
  match tag_of n with
  | Some t' => String.eqb t' t
  | None => false
  end.

Definition has_attr (name value : string) (n : node) : bool :=
  match attr name n with
  | Some v => String.eqb v value
  | None => false
  end.

Definition has_id (i : string) (n : node) : bool := has_attr "id" i n.

(** Every element of the tree, the root included, in document order. *)
Fixpoint elements (n : node) : list node :=
  match n with
  | Text _ => []
  | Elem _ _ children => n :: flat_map elements children
  end.

(** The elements strictly below a node. *)
Definition descendants (n : node) : list node :=
  flat_map elements (children_of n).

(** The text of a node: its text descendants concatenated in order. *)
Fixpoint textContent (n : node) : string :=
  match n with
  | Text s => s
  | Elem _ _ children =>
      fold_right (fun c acc => textContent c ++ acc) "" children
  end.

Definition by_tag (t : string) (n : node) : list node :=
  filter (has_tag t) (elements n).

(** The id props of the tree, in document order. *)
Definition ids (n : node) : list string :=
  flat_map (fun e => match attr "id" e with Some i => [i] | None => [] end)
           (elements n).

(** How many elements of the tree carry the id [i]. *)
Definition count_id (i : string) (n : node) : nat :=
  length (filter (has_id i) (elements n)).

(** The first element in document order that carries the id [i]. *)
Definition getElementById (i : string) (n : node) : option node :=
  find (has_id i) (elements n).

(** The fragment a link points to: the part of its href after the hash. *)
Definition fragment (href : string) : option string :=
  match href with
  | String "#"%char rest => Some rest
  | _ => None
  end.

(** The element a link resolves to within the tree [doc]: the text after
    the hash is compared with the ids as written, which is how a fragment
    that needs no decoding resolves. *)
Definition link_target (doc a : node) : option node :=
  match attr "href" a with
  | Some h =>
      match fragment h with
      | Some i => getElementById i doc
      | None => None
      end
  | None => None
  end.

Definition is_heading (n : node) : bool :=
  has_tag "h1" n || has_tag "h2" n || has_tag "h3" n
  || has_tag "h4" n || has_tag "h5" n || has_tag "h6" n.

(** React's event props are the ones named [on...]. *)
Definition is_event_prop (p : prop) : bool := String.prefix "on" (fst p).

Definition event_props (n : node) : list prop :=
  filter is_event_prop (props_of n).

Definition nonempty (s : string) : bool := negb (String.eqb s "").

End Dom.

Import Dom.

(** ** The component *)

(** The text of the hero heading. *)
Definition hero_text : string :=
  "Answers and help for everything UC Merced — registration, campus life, and resources.".

(** [App], as written in [src/App.tsx].  Whitespace between JSX children
    that spans a line break produces no text node, and the text of a
    paragraph broken over two lines is joined by one space. *)
Definition App (_ : unit) : node :=
  Elem "div" [("id", "root")] [
    Elem "header" [("className", "site-header")] [
      Elem "div" [("className", "brand")] [
        Elem "img" [("src", "/vite.svg"); ("className", "logo"); ("alt", "Rufus AI logo")] [];
        Elem "div" [] [
          Elem "h1" [] [Text "Rufus AI"];
          Elem "p" [("className", "tagline")]
            [Text "A helper for UC Merced students, parents, and faculty."]
        ]
      ];
      Elem "nav" [("className", "site-nav"); ("aria-label", "Primary")] [
        Elem "a" [("href", "#students")] [Text "Students"];
        Elem "a" [("href", "#parents")] [Text "Parents"];
        Elem "a" [("href", "#faculty")] [Text "Faculty/Staff"]
      ]
    ];
    Elem "main" [] [
      Elem "section" [("className", "hero"); ("aria-labelledby", "hero-heading")] [
        Elem "h2" [("id", "hero-heading")] [Text hero_text];
        Elem "div" [("className", "search")] [
          Elem "input" [("type", "text");
                        ("placeholder", "e.g., How do I register for CS 101?");
                        ("aria-label", "Ask Rufus")] [];
          Elem "button" [("className", "primary")] [Text "Ask Rufus"]
        ];
        Elem "div" [("className", "cta-row")] [
          Elem "button" [("className", "primary")] [Text "Get Started"];
          Elem "a" [("className", "learn"); ("href", "#learn-more")] [Text "Learn more"]
        ]
      ];
      Elem "section" [("className", "features"); ("id", "learn-more")] [
        Elem "article" [] [
          Elem "h3" [] [Text "Course registration"];
          Elem "p" [] [Text "Step-by-step help with enrollment, deadlines, and prerequisites."]
        ];
        Elem "article" [] [
          Elem "h3" [] [Text "Campus information"];
          Elem "p" [] [Text "Find maps, offices, events, and student services across campus."]
        ];
        Elem "article" [] [
          Elem "h3" [] [Text "Parents & faculty"];
          Elem "p" [] [Text "Resources tailored to support students from families and staff."]
        ]
      ];
      Elem "section" [("className", "about"); ("id", "students")] [
        Elem "h3" [] [Text "Who it's for"];
        Elem "p" []
          [Text "Rufus AI is a prototype assistant for UC Merced students, parents, and faculty — a quick way to find answers about courses, registration, campus life, and support services."]
      ]
    ];
    Elem "footer" [("className", "site-footer")] [
      Elem "p" [] [Text "Built for UC Merced — prototype. Contact: rufus@example.edu"]
    ]
  ].

(** ** Parts of the page *)

(** The header, the hero section and the primary navigation, found by the
    tag and class the source gives them. *)
Definition headers (doc : node) : list node := by_tag "header" doc.

Definition hero_sections (doc : node) : list node :=
  filter (has_attr "className" "hero") (by_tag "section" doc).

Definition navs_in (n : node) : list node :=
  filter (has_tag "nav") (descendants n).

Definition links_in (n : node) : list node :=
  filter (has_tag "a") (descendants n).

Definition buttons_in (n : node) : list node :=
  filter (has_tag "button") (descendants n).

Definition headings_in (n : node) : list node :=
  filter is_heading (descendants n).

Definition text_inputs_in (n : node) : list node :=
  filter (has_attr "type" "text") (filter (has_tag "input") (descendants n)).

(** The links of the primary navigation, in order. *)
Definition nav_links (doc : node) : list node :=
  flat_map links_in (flat_map navs_in (headers doc)).

Definition hrefs (l : list node) : list (option string) := map (attr "href") l.

(** The title of a feature card: the text of its headings. *)
Definition article_titles (doc : node) : list (list string) :=
  map (fun a => map textContent (headings_in a)) (by_tag "article" doc).

(** The headings of the page whose text is [t]. *)
Definition headings_with_text (t : string) (doc : node) : list node :=
  filter (fun h => String.eqb (textContent h) t) (filter is_heading (elements doc)).

(** How many elements with id [i] a link into the page can land on. *)
Definition target_count (doc a : node) : option nat :=
  match attr "href" a with
  | Some h =>
      match fragment h with
      | Some i => Some (count_id i doc)
      | None => None
      end
  | None => None
  end.

(** The tag of the element a link lands on, when it lands on one. *)
Definition target_tag (doc a : node) : option string :=
  match link_target doc a with
  | Some e => tag_of e
  | None => None
  end.

(** ** Outline, landmarks and references *)

(** Whether an element writes the prop [name] at all. *)
Definition carries (name : string) (n : node) : bool :=
  match attr name n with
  | Some _ => true
  | None => false
  end.

(** The level of a heading element: 1 for [h1] up to 6 for [h6]. *)
Definition heading_level (n : node) : option nat :=
  if has_tag "h1" n then Some 1
  else if has_tag "h2" n then Some 2
  else if has_tag "h3" n then Some 3
  else if has_tag "h4" n then Some 4
  else if has_tag "h5" n then Some 5
  else if has_tag "h6" n then Some 6
  else None.

(** The heading levels of the page, in document order. *)
Definition outline (doc : node) : list nat :=
  flat_map (fun e => match heading_level e with Some k => [k] | None => [] end)
           (elements doc).

(** No heading is more than one level below the heading before it;
    [prev] is the level the outline starts from. *)
Fixpoint no_skipped_level (prev : nat) (levels : list nat) : bool :=
  match levels with
  | [] => true
  | k :: rest => Nat.leb k (S prev) && no_skipped_level k rest
  end.

(** The tags the DOM renders without content; React refuses children on
    them. *)
Definition void_tags : list string :=
  ["menuitem"; "area"; "base"; "br"; "col"; "embed"; "hr"; "img"; "input";
   "keygen"; "link"; "meta"; "param"; "source"; "track"; "wbr"].

Definition is_void (n : node) : bool :=
  existsb (fun t => has_tag t n) void_tags.

Definition childless (n : node) : bool :=
  match children_of n with
  | [] => true
  | _ :: _ => false
  end.

(** No prop name is written twice in a prop list. *)
Fixpoint distinct_names (ps : list prop) : bool :=
  match ps with
  | [] => true
  | (k, _) :: ps' =>
      negb (existsb (fun q => String.eqb (fst q) k) ps') && distinct_names ps'
  end.

(** A link that stays on the page: its href is a hash and a non-empty
    fragment. *)
Definition in_page_link (a : node) : bool :=
  match attr "href" a with
  | Some h =>
      match fragment h with
      | Some i => nonempty i
      | None => false
      end
  | None => false
  end.

(** The elements an [aria-labelledby] names, looked up in [doc]. *)
Definition labelling_elements (doc e : node) : list node :=
  match attr "aria-labelledby" e with
  | Some i => filter (has_id i) (elements doc)
  | None => []
  end.

(** The tags of the child elements of a node, in order. *)
Definition child_tags (n : node) : list (option string) :=
  map tag_of (children_of n).

(** The texts of the paragraphs below a node. *)
Definition paragraphs_in (n : node) : list string :=
  map textContent (filter (has_tag "p") (descendants n)).

(** The children of a node are single runs of text only. *)
Definition text_only (n : node) : bool :=
  match children_of n with
  | [Text s] => nonempty s
  | _ => false
  end.

(** ** The component as JSX *)

Module Jsx.

(** What JSX lets the source write for a prop: a string literal, or an
    expression in braces, whose value is whatever the name it reads holds
    when the component renders (a prop, a piece of hook state, a module
    variable, a handler). *)
Inductive value : Type :=
| Lit (s : string)
| Braces (x : string).

Unset Elimination Schemes.

(** A JSX term: text, an expression in braces, or an element. *)
Inductive jsx : Type :=
| JText (s : string)
| JBraces (x : string)
| JElem (tag : string) (attrs : list (string * value)) (children : list jsx).

Set Elimination Schemes.

Section jsx_induction.
Variable P : jsx -> Prop.
Hypothesis P_text : forall s, P (JText s).
Hypothesis P_braces : forall x, P (JBraces x).
Hypothesis P_elem :
  forall tag attrs children, Forall P children -> P (JElem tag attrs children).

Fixpoint jsx_ind (j : jsx) : P j :=
  match j with
  | JText s => P_text s
  | JBraces x => P_braces x
  | JElem tag attrs children =>
      P_elem tag attrs children
        ((fix all (l : list jsx) : Forall P l :=
            match l with
            | [] => Forall_nil P
            | c :: l' => Forall_cons c (jsx_ind c) (all l')
            end) children)
  end.
End jsx_induction.

(** What the names in scope hold at one rendering. *)
Definition scope : Type := string -> string.

Definition eval (sc : scope) (v : value) : string :=
  match v with
  | Lit s => s
  | Braces x => sc x
  end.

Definition eval_attr (sc : scope) (a : string * value) : prop :=
  (fst a, eval sc (snd a)).

(** One rendering of a JSX term, with the names in scope as they are then. *)
Fixpoint render (sc : scope) (j : jsx) : node :=
  match j with
  | JText s => Text s
  | JBraces x => Text (sc x)
  | JElem tag attrs children =>
      Elem tag (map (eval_attr sc) attrs) (map (render sc) children)
  end.

Definition is_lit (v : value) : bool :=
  match v with
  | Lit _ => true
  | Braces _ => false
  end.

(** A term that reads nothing: no braces, in props or among children. *)
Fixpoint static (j : jsx) : bool :=
  match j with
  | JText _ => true
  | JBraces _ => false
  | JElem _ attrs children =>
      forallb (fun a => is_lit (snd a)) attrs && forallb static children
  end.

End Jsx.

Import Jsx.

(** The JSX that [App] returns, as [src/App.tsx] writes it: every prop is a
    string literal and every child is an element or text. *)
Definition App_jsx : jsx :=
  JElem "div" [("id", Lit "root")] [
    JElem "header" [("className", Lit "site-header")] [
      JElem "div" [("className", Lit "brand")] [
        JElem "img" [("src", Lit "/vite.svg"); ("className", Lit "logo");
                     ("alt", Lit "Rufus AI logo")] [];
        JElem "div" [] [
          JElem "h1" [] [JText "Rufus AI"];
          JElem "p" [("className", Lit "tagline")]
            [JText "A helper for UC Merced students, parents, and faculty."]
        ]
      ];
      JElem "nav" [("className", Lit "site-nav"); ("aria-label", Lit "Primary")] [
        JElem "a" [("href", Lit "#students")] [JText "Students"];
        JElem "a" [("href", Lit "#parents")] [JText "Parents"];
        JElem "a" [("href", Lit "#faculty")] [JText "Faculty/Staff"]
      ]
    ];
    JElem "main" [] [
      JElem "section" [("className", Lit "hero");
                       ("aria-labelledby", Lit "hero-heading")] [
        JElem "h2" [("id", Lit "hero-heading")] [JText hero_text];
        JElem "div" [("className", Lit "search")] [
          JElem "input" [("type", Lit "text");
                         ("placeholder", Lit "e.g., How do I register for CS 101?");
                         ("aria-label", Lit "Ask Rufus")] [];
          JElem "button" [("className", Lit "primary")] [JText "Ask Rufus"]
        ];
        JElem "div" [("className", Lit "cta-row")] [
          JElem "button" [("className", Lit "primary")] [JText "Get Started"];
          JElem "a" [("className", Lit "learn"); ("href", Lit "#learn-more")]
            [JText "Learn more"]
        ]
      ];
      JElem "section" [("className", Lit "features"); ("id", Lit "learn-more")] [
        JElem "article" [] [
          JElem "h3" [] [JText "Course registration"];
          JElem "p" []
            [JText "Step-by-step help with enrollment, deadlines, and prerequisites."]
        ];
        JElem "article" [] [
          JElem "h3" [] [JText "Campus information"];
          JElem "p" []
            [JText "Find maps, offices, events, and student services across campus."]
        ];
        JElem "article" [] [
          JElem "h3" [] [JText "Parents & faculty"];
          JElem "p" []
            [JText "Resources tailored to support students from families and staff."]
        ]
      ];
      JElem "section" [("className", Lit "about"); ("id", Lit "students")] [
        JElem "h3" [] [JText "Who it's for"];
        JElem "p" []
          [JText "Rufus AI is a prototype assistant for UC Merced students, parents, and faculty — a quick way to find answers about courses, registration, campus life, and support services."]
      ]
    ];
    JElem "footer" [("className", Lit "site-footer")] [
      JElem "p" []
        [JText "Built for UC Merced — prototype. Contact: rufus@example.edu"]
    ]
  ].

(** ** Facts about element trees *)

Section tree_facts.

Variable doc : node.

(** [elements] lists elements only: no text node is among them. *)
Lemma elements_are_elems :
  forall e, In e (elements doc) -> exists tag props children, e = Elem tag props children.
Proof.
  induction doc as [s | tag props children IH] using node_ind; intros e He.
  - contradiction.
  - simpl in He. destruct He as [<- | He].
    + now exists tag, props, children.
    + apply in_flat_map in He. destruct He as [c [Hc Hin]].
      rewrite Forall_forall in IH. exact (IH c Hc e Hin).
Qed.

Lemma has_id_iff (i : string) (e : node) :
  has_id i e = true <-> attr "id" e = Some i.
Proof.
  unfold has_id, has_attr. destruct (attr "id" e) as [v |].
  - rewrite String.eqb_eq. split; congruence.
  - split; discriminate.
Qed.

(** Counting the carriers of an id is counting its occurrences in [ids]. *)
Lemma count_id_count_occ (i : string) :
  count_id i doc = count_occ string_dec (ids doc) i.
Proof.
  unfold count_id, ids. induction (elements doc) as [| e l IHl]; [reflexivity |].
  simpl. rewrite count_occ_app, <- IHl. clear IHl.
  destruct (has_id i e) eqn:E.
  - apply has_id_iff in E. rewrite E. simpl.
    destruct (string_dec i i); [reflexivity | contradiction].
  - destruct (attr "id" e) as [v |] eqn:A; [| reflexivity]. simpl.
    destruct (string_dec v i) as [-> | _]; [| reflexivity].
    apply has_id_iff in A. congruence.
Qed.

(** Where no id repeats, every id that occurs has exactly one carrier. *)
Lemma nodup_ids_count (i : string) :
  NoDup (ids doc) -> In i (ids doc) -> count_id i doc = 1.
Proof.
  intros Hnd Hin. rewrite count_id_count_occ.
  now apply (proj1 (NoDup_count_occ' string_dec (ids doc)) Hnd).
Qed.

(** An id nobody carries resolves to nothing. *)
Lemma count_id_zero_unresolved (i : string) :
  count_id i doc = 0 -> getElementById i doc = None.
Proof.
  unfold count_id, getElementById.
  induction (elements doc) as [| e l IHl]; [reflexivity |].
  simpl. destruct (has_id i e); simpl; [discriminate | exact IHl].
Qed.

Lemma find_head_filter {A : Type} (p : A -> bool) (l : list A) :
  find p l = hd_error (filter p l).
Proof.
  induction l as [| x l IHl]; [reflexivity |].
  simpl. now destruct (p x).
Qed.

(** An id carried once resolves to its one carrier. *)
Lemma unique_id_target (i : string) (e : node) :
  count_id i doc = 1 -> getElementById i doc = Some e ->
  forall e', In e' (elements doc) -> has_id i e' = true -> e' = e.
Proof.
  unfold count_id, getElementById. rewrite find_head_filter.
  intros Hlen Hhd e' Hin Hid.
  assert (Hf : In e' (filter (has_id i) (elements doc)))
    by (apply filter_In; auto).
  destruct (filter (has_id i) (elements doc)) as [| x [| y l]];
    try discriminate.
  simpl in Hhd. injection Hhd as <-.
  destruct Hf as [Hf | []]. now symmetry.
Qed.

End tree_facts.

(** ** Rendering and what is in scope *)

(** A static term renders to the same tree whatever is in scope. *)
Lemma static_render (j : jsx) :
  static j = true -> forall s1 s2 : scope, render s1 j = render s2 j.
Proof.
  induction j as [s | x | tag attrs children IH] using jsx_ind;
    intros Hst s1 s2.
  - reflexivity.
  - discriminate.
  - simpl in Hst. apply andb_true_iff in Hst. destruct Hst as [Hattrs Hkids].
    rewrite forallb_forall in Hattrs, Hkids. rewrite Forall_forall in IH.
    simpl. f_equal.
    + apply map_ext_in. intros [k v] Hin. unfold eval_attr. simpl.
      specialize (Hattrs (k, v) Hin). simpl in Hattrs.
      destruct v; [reflexivity | discriminate].
    + apply map_ext_in. intros c Hin. exact (IH c Hin (Hkids c Hin) s1 s2).
Qed.

(** A term that reads a name renders differently when the name changes:
    rendering does depend on the scope as soon as braces occur. *)
Lemma braces_follow_scope (x : string) (s1 s2 : scope) :
  s1 x <> s2 x -> render s1 (JBraces x) <> render s2 (JBraces x).
Proof.
  intros Hne Heq. simpl in Heq. injection Heq as Heq. contradiction.
Qed.

Lemma braces_prop_follows_scope (tag k x : string) (s1 s2 : scope) :
  s1 x <> s2 x ->
  render s1 (JElem tag [(k, Braces x)] []) <> render s2 (JElem tag [(k, Braces x)] []).
Proof.
  intros Hne Heq. simpl in Heq. unfold eval_attr in Heq. simpl in Heq.
  injection Heq as Heq. contradiction.
Qed.

(** ** The page *)

Ltac by_rendering u := destruct u; vm_compute; repeat split; try reflexivity.

(** The ids of the page, in document order. *)
Lemma App_ids (u : unit) :
  ids (App u) = ["root"; "hero-heading"; "learn-more"; "students"].
Proof. now destruct u. Qed.

Lemma App_ids_nodup (u : unit) : NoDup (ids (App u)).
Proof.
  rewrite App_ids.
  repeat (constructor; [simpl; intuition discriminate |]). constructor.
Qed.

(** C1: the navigation links point to [#students], [#parents] and
    [#faculty]; the id [students] is carried by exactly one element, while
    no element carries the id [parents] or [faculty], so the second and third
    links resolve to nothing and not every navigation target is an in-page
    anchor. *)
Theorem nav_link_targets (u : unit) :
  hrefs (nav_links (App u)) = [Some "#students"; Some "#parents"; Some "#faculty"]
  /\ map (target_count (App u)) (nav_links (App u)) = [Some 1; Some 0; Some 0]
  /\ map (target_tag (App u)) (nav_links (App u))
     = [Some "section"; None; None]
  /\ count_id "parents" (App u) = 0
  /\ count_id "faculty" (App u) = 0
  /\ ~ Forall (fun a => target_count (App u) a = Some 1) (nav_links (App u)).
Proof.
  destruct u. repeat split; try reflexivity.
  intros H. rewrite Forall_forall in H.
  specialize (H (Elem "a" [("href", "#parents")] [Text "Parents"])).
  assert (Hin : In (Elem "a" [("href", "#parents")] [Text "Parents"])
                   (nav_links (App tt))) by (vm_compute; tauto).
  apply H in Hin. vm_compute in Hin. discriminate.
Qed.

(** C2: the page has exactly one heading element whose text is the hero
    text, the [h2] of the hero section, and exactly three [article] blocks,
    titled "Course registration", "Campus information" and
    "Parents & faculty". *)
Theorem hero_heading_and_feature_articles (u : unit) :
  headings_with_text hero_text (App u)
  = [Elem "h2" [("id", "hero-heading")] [Text hero_text]]
  /\ length (headings_with_text hero_text (App u)) = 1
  /\ length (by_tag "article" (App u)) = 3
  /\ article_titles (App u)
     = [["Course registration"]; ["Campus information"]; ["Parents & faculty"]].
Proof. by_rendering u. Qed.

(** C3: the JSX of [App] reads nothing, neither a prop nor state nor any
    other name: all its props are literals and it has no expression in
    braces.  So two renderings, whatever is in scope at each, give the same
    tree, and that tree is the one [App] returns at every invocation. *)
Theorem App_rerender_identical (s1 s2 : scope) (u v : unit) :
  static App_jsx = true
  /\ render s1 App_jsx = render s2 App_jsx
  /\ render s1 App_jsx = App u
  /\ render s2 App_jsx = App v
  /\ App u = App v.
Proof.
  assert (Hst : static App_jsx = true) by reflexivity.
  assert (Hu : forall s w, render s App_jsx = App w)
    by (intros s []; reflexivity).
  split; [exact Hst |]. split; [exact (static_render App_jsx Hst s1 s2) |].
  split; [apply Hu |]. split; [apply Hu |].
  rewrite <- (Hu s1 u). apply Hu.
Qed.

(** C4: the page has one text input; its [aria-label] is present and not
    empty, and its placeholder is "e.g., How do I register for CS 101?". *)
Theorem search_input_labelled (u : unit) :
  exists i label,
    text_inputs_in (App u) = [i]
    /\ attr "aria-label" i = Some label
    /\ nonempty label = true
    /\ attr "placeholder" i = Some "e.g., How do I register for CS 101?".
Proof.
  destruct u.
  eexists; exists "Ask Rufus". split; [reflexivity |]. by_rendering tt.
Qed.

(** C5: the page has one header; the header holds one [nav], which has a
    non-empty [aria-label], and the links of the header are the three links
    of that [nav], with hrefs [#students], [#parents], [#faculty] in this
    order. *)
Theorem header_navigation (u : unit) :
  exists h n name,
    headers (App u) = [h]
    /\ navs_in h = [n]
    /\ attr "aria-label" n = Some name
    /\ nonempty name = true
    /\ links_in h = links_in n
    /\ length (links_in n) = 3
    /\ hrefs (links_in n) = [Some "#students"; Some "#parents"; Some "#faculty"].
Proof.
  destruct u.
  eexists; eexists; exists "Primary".
  split; [reflexivity |]. split; [reflexivity |]. by_rendering tt.
Qed.

(** C6: the hero section holds one heading (the hero text), one text input
    with a placeholder and a non-empty [aria-label], two buttons labelled
    "Ask Rufus" and "Get Started", and one link, labelled "Learn more", whose
    href is [#learn-more]. *)
Theorem hero_section_contents (u : unit) :
  exists s i placeholder label,
    hero_sections (App u) = [s]
    /\ map textContent (headings_in s) = [hero_text]
    /\ text_inputs_in s = [i]
    /\ attr "placeholder" i = Some placeholder
    /\ nonempty placeholder = true
    /\ attr "aria-label" i = Some label
    /\ nonempty label = true
    /\ map textContent (buttons_in s) = ["Ask Rufus"; "Get Started"]
    /\ map (fun a => (textContent a, attr "href" a)) (links_in s)
       = [("Learn more", Some "#learn-more")].
Proof.
  destruct u.
  eexists; eexists;
    exists "e.g., How do I register for CS 101?", "Ask Rufus".
  split; [reflexivity |]. split; [reflexivity |]. split; [reflexivity |].
  by_rendering tt.
Qed.

(** C7: [App] is a total function of no input, so every rendering yields a
    tree; the page has two buttons, neither carries an event prop, no element
    of the page carries one, and no button sits in a form it could submit. *)
Theorem buttons_inert (u : unit) :
  (exists doc, App u = doc)
  /\ length (buttons_in (App u)) = 2
  /\ Forall (fun b => event_props b = []) (buttons_in (App u))
  /\ Forall (fun e => event_props e = []) (elements (App u))
  /\ by_tag "form" (App u) = [].
Proof.
  destruct u. split; [now eexists |]. split; [reflexivity |].
  split; [| split; [| reflexivity]];
    repeat (constructor; [reflexivity |]); constructor.
Qed.

(** C8: the ids of the page are [root], [hero-heading], [learn-more] and
    [students], and each id that occurs is carried by exactly one element. *)
Theorem App_ids_unique (u : unit) (i : string) :
  In i (ids (App u)) ->
  ids (App u) = ["root"; "hero-heading"; "learn-more"; "students"]
  /\ count_id i (App u) = 1.
Proof.
  intros Hin. split; [apply App_ids |].
  apply nodup_ids_count; [apply App_ids_nodup | exact Hin].
Qed.

Lemma App_ids_unique_witness :
  In "students" (ids (App tt))
  /\ ids (App tt) = ["root"; "hero-heading"; "learn-more"; "students"]
  /\ count_id "students" (App tt) = 1.
Proof.
  assert (Hin : In "students" (ids (App tt))) by (vm_compute; tauto).
  split; [exact Hin | exact (App_ids_unique tt "students" Hin)].
Defined.

(** C9: the hero's "Learn more" link has href [#learn-more]; the element it
    resolves to is the features section, which carries the id [learn-more]
    and is the only element that does. *)
Theorem learn_more_resolves (u : unit) :
  exists a feat,
    flat_map links_in (hero_sections (App u)) = [a]
    /\ textContent a = "Learn more"
    /\ attr "href" a = Some "#learn-more"
    /\ link_target (App u) a = Some feat
    /\ tag_of feat = Some "section"
    /\ attr "className" feat = Some "features"
    /\ attr "id" feat = Some "learn-more"
    /\ count_id "learn-more" (App u) = 1
    /\ (forall e, In e (elements (App u)) -> has_id "learn-more" e = true -> e = feat).
Proof.
  destruct u. eexists; eexists.
  split; [reflexivity |]. split; [reflexivity |]. split; [reflexivity |].
  split; [reflexivity |]. split; [reflexivity |]. split; [reflexivity |].
  split; [reflexivity |]. split; [reflexivity |].
  apply unique_id_target; reflexivity.
Qed.

(** C10: the page has one image, the logo, and its [alt] text is
    "Rufus AI logo", which is not empty. *)
Theorem logo_has_alt_text (u : unit) :
  exists img alt,
    by_tag "img" (App u) = [img]
    /\ attr "alt" img = Some alt
    /\ alt = "Rufus AI logo"
    /\ nonempty alt = true.
Proof.
  destruct u. eexists; exists "Rufus AI logo".
  split; [reflexivity |]. by_rendering tt.
Qed.

(** ** More facts about element trees *)

(** The ids of a tree are the id props its elements write. *)
Lemma ids_carrier (doc : node) (i : string) :
  In i (ids doc) <-> exists e, In e (elements doc) /\ attr "id" e = Some i.
Proof.
  unfold ids. rewrite in_flat_map. split.
  - intros [e [He Hi]]. exists e. split; [exact He |].
    destruct (attr "id" e) as [j |]; simpl in Hi.
    + destruct Hi as [-> | []]. reflexivity.
    + contradiction.
  - intros [e [He Ha]]. exists e. split; [exact He |].
    rewrite Ha. now left.
Qed.

(** What [getElementById] returns is an element of the tree with that id. *)
Lemma getElementById_carries (doc : node) (i : string) (e : node) :
  getElementById i doc = Some e -> In e (elements doc) /\ attr "id" e = Some i.
Proof.
  unfold getElementById. intros H. apply find_some in H.
  destruct H as [Hin Hid]. split; [exact Hin | now apply has_id_iff].
Qed.

(** An id resolves exactly when it occurs among the ids of the tree. *)
Lemma getElementById_resolves_iff (doc : node) (i : string) :
  (exists e, getElementById i doc = Some e) <-> In i (ids doc).
Proof.
  rewrite ids_carrier. split.
  - intros [e H]. exists e. now apply getElementById_carries.
  - intros [e [Hin Ha]]. unfold getElementById.
    destruct (find (has_id i) (elements doc)) as [e' |] eqn:F; [now exists e' |].
    apply has_id_iff in Ha.
    pose proof (find_none _ _ F e Hin) as Hno. congruence.
Qed.

Lemma lookup_in (ps : list prop) (k v : string) :
  lookup k ps = Some v -> In (k, v) ps.
Proof.
  induction ps as [| [k' v'] ps IH]; simpl; [discriminate |].
  destruct (String.eqb k' k) eqn:E.
  - intros [= <-]. apply String.eqb_eq in E. subst k'. now left.
  - intros H. right. exact (IH H).
Qed.

(** Where no prop name repeats, every written prop is the one [lookup]
    finds. *)
Lemma in_lookup_distinct (ps : list prop) (k v : string) :
  distinct_names ps = true -> In (k, v) ps -> lookup k ps = Some v.
Proof.
  induction ps as [| [k' v'] ps IH]; simpl; intros Hd Hin; [contradiction |].
  apply andb_true_iff in Hd. destruct Hd as [Hfresh Hd].
  destruct Hin as [Heq | Hin].
  - injection Heq as -> ->. now rewrite String.eqb_refl.
  - destruct (String.eqb k' k) eqn:E; [| exact (IH Hd Hin)].
    apply String.eqb_eq in E. subst k'. apply negb_true_iff in Hfresh.
    assert (Hex : existsb (fun q : prop => String.eqb (fst q) k) ps = true).
    { apply existsb_exists. exists (k, v). split; [exact Hin |].
      simpl. apply String.eqb_refl. }
    destruct (eq_true_false_abs _ Hex Hfresh).
Qed.

(** In an outline without skipped levels, every level between the start
    and a level in use is in use too. *)
Lemma no_skipped_level_fills (levels : list nat) :
  forall prev, no_skipped_level prev levels = true ->
  forall k, In k levels ->
  forall j, (prev < j)%nat -> (j <= k)%nat -> In j levels.
Proof.
  induction levels as [| x rest IH]; intros prev Hns k Hk j Hlo Hhi.
  - contradiction.
  - simpl in Hns. apply andb_true_iff in Hns. destruct Hns as [Hx Hrest].
    apply Nat.leb_le in Hx.
    destruct (Nat.le_gt_cases j x) as [Hjx | Hjx].
    + left. lia.
    + right. destruct Hk as [-> | Hk]; [lia |].
      exact (IH x Hrest k Hk j Hjx Hhi).
Qed.

(** ** The rest of the page *)

(** X1: looking an id up in the page by its exact text finds an element
    exactly when the id is one of [root], [hero-heading], [learn-more],
    [students]; the element found is in the page and carries that id, and it
    is the only one that does. *)
Theorem id_lookup_resolves (u : unit) (i : string) :
  ((exists e, getElementById i (App u) = Some e)
   <-> In i ["root"; "hero-heading"; "learn-more"; "students"])
  /\ (getElementById i (App u) = None <-> count_id i (App u) = 0)
  /\ (forall e, getElementById i (App u) = Some e ->
                In e (elements (App u))
                /\ attr "id" e = Some i
                /\ filter (has_id i) (elements (App u)) = [e]).
Proof.
  split; [| split].
  - rewrite getElementById_resolves_iff, App_ids. reflexivity.
  - split; [| apply count_id_zero_unresolved].
    unfold getElementById, count_id. rewrite find_head_filter.
    destruct (filter (has_id i) (elements (App u))); [reflexivity | discriminate].
  - intros e He.
    destruct (getElementById_carries _ _ _ He) as [Hin Hid].
    split; [exact Hin |]. split; [exact Hid |].
    assert (Hone : count_id i (App u) = 1).
    { apply nodup_ids_count; [apply App_ids_nodup |].
      apply ids_carrier. now exists e. }
    unfold getElementById in He. rewrite find_head_filter in He.
    unfold count_id in Hone.
    destruct (filter (has_id i) (elements (App u))) as [| x [| y l]];
      try discriminate.
    simpl in He. now injection He as ->.
Qed.

(** X2: one element of the page has an [aria-labelledby], the hero section;
    the id it names is carried by exactly one element, the [h2] that is the
    section's first child, whose text is the hero text. *)
Theorem hero_labelled_by_its_heading (u : unit) :
  exists s h,
    filter (carries "aria-labelledby") (elements (App u)) = [s]
    /\ hero_sections (App u) = [s]
    /\ labelling_elements (App u) s = [h]
    /\ nth_error (children_of s) 0 = Some h
    /\ tag_of h = Some "h2"
    /\ textContent h = hero_text.
Proof.
  destruct u. eexists; eexists.
  split; [reflexivity |]. split; [reflexivity |]. split; [reflexivity |].
  by_rendering tt.
Qed.

(** X3: the headings of the page have levels 1, 2, 3, 3, 3, 3 in document
    order: there is one [h1], no heading is more than one level below the
    heading before it, and so every level above a level in use is in use. *)
Theorem heading_outline (u : unit) :
  outline (App u) = [1; 2; 3; 3; 3; 3]
  /\ no_skipped_level 0 (outline (App u)) = true
  /\ map textContent (by_tag "h1" (App u)) = ["Rufus AI"]
  /\ length (filter is_heading (elements (App u))) = length (outline (App u))
  /\ (forall k j, In k (outline (App u)) -> (0 < j)%nat -> (j <= k)%nat ->
                  In j (outline (App u))).
Proof.
  destruct u. do 4 (split; [reflexivity |]).
  intros k j Hk Hlo Hhi.
  exact (no_skipped_level_fills (outline (App tt)) 0 eq_refl k Hk j Hlo Hhi).
Qed.

(** X4: the root [div] has three children, a [header], a [main] and a
    [footer] in this order, and the page has no other header, main, footer
    or nav; the children of [main] are three sections with class names
    [hero], [features], [about] in this order. *)
Theorem page_landmarks (u : unit) :
  exists m,
    tag_of (App u) = Some "div"
    /\ child_tags (App u) = [Some "header"; Some "main"; Some "footer"]
    /\ map (fun t => length (by_tag t (App u))) ["header"; "main"; "footer"; "nav"]
       = [1; 1; 1; 1]
    /\ by_tag "main" (App u) = [m]
    /\ child_tags m = [Some "section"; Some "section"; Some "section"]
    /\ map (attr "className") (children_of m)
       = [Some "hero"; Some "features"; Some "about"]
    /\ by_tag "section" (App u) = children_of m.
Proof.
  destruct u. eexists.
  split; [reflexivity |]. split; [reflexivity |]. split; [reflexivity |].
  split; [reflexivity |]. by_rendering tt.
Qed.

(** X5: the elements that carry an href are the four links of the page and
    each href is a hash with a non-empty fragment, so no link leaves the
    page; the one element with a [src] is the logo image, whose source is
    the site's own [/vite.svg]. *)
Theorem no_external_reference (u : unit) :
  filter (carries "href") (elements (App u)) = by_tag "a" (App u)
  /\ length (by_tag "a" (App u)) = 4
  /\ forallb in_page_link (by_tag "a" (App u)) = true
  /\ map (fun e => (tag_of e, attr "src" e)) (filter (carries "src") (elements (App u)))
     = [(Some "img", Some "/vite.svg")].
Proof. by_rendering u. Qed.

(** X6: the void elements of the page are the logo [img] and the search
    [input], and neither has children, so React's check that a void element
    has no content passes for every element of the page. *)
Theorem void_elements_childless (u : unit) :
  map tag_of (filter is_void (elements (App u))) = [Some "img"; Some "input"]
  /\ forallb childless (filter is_void (elements (App u))) = true
  /\ filter (carries "dangerouslySetInnerHTML") (elements (App u)) = []
  /\ filter (carries "children") (elements (App u)) = [].
Proof. by_rendering u. Qed.

(** X7: every link and every button of the page holds one non-empty run of
    text and nothing else; the links read "Students", "Parents",
    "Faculty/Staff", "Learn more" and the buttons "Ask Rufus",
    "Get Started". *)
Theorem controls_have_text (u : unit) :
  forallb text_only (by_tag "a" (App u)) = true
  /\ forallb text_only (by_tag "button" (App u)) = true
  /\ map textContent (by_tag "a" (App u))
     = ["Students"; "Parents"; "Faculty/Staff"; "Learn more"]
  /\ map textContent (nav_links (App u)) = ["Students"; "Parents"; "Faculty/Staff"]
  /\ map textContent (by_tag "button" (App u)) = ["Ask Rufus"; "Get Started"].
Proof. by_rendering u. Qed.

(** X8: the first navigation link, "Students", resolves to the about
    section, the only element with the id [students]; that section holds the
    heading "Who it's for" followed by one paragraph. *)
Theorem students_link_lands_on_about (u : unit) :
  exists a about,
    nth_error (nav_links (App u)) 0 = Some a
    /\ textContent a = "Students"
    /\ link_target (App u) a = Some about
    /\ filter (has_id "students") (elements (App u)) = [about]
    /\ tag_of about = Some "section"
    /\ attr "className" about = Some "about"
    /\ child_tags about = [Some "h3"; Some "p"]
    /\ map textContent (headings_in about) = ["Who it's for"]
    /\ paragraphs_in about
       = ["Rufus AI is a prototype assistant for UC Merced students, parents, and faculty — a quick way to find answers about courses, registration, campus life, and support services."].
Proof.
  destruct u. eexists; eexists.
  split; [reflexivity |]. split; [reflexivity |]. split; [reflexivity |].
  by_rendering tt.
Qed.

(** X9: the children of the features section, the element with the id
    [learn-more], are the three articles of the page and nothing else; each
    article is an [h3] followed by one [p], and the three descriptions are the
    ones the source writes. *)
Theorem feature_cards (u : unit) :
  exists feat,
    getElementById "learn-more" (App u) = Some feat
    /\ children_of feat = by_tag "article" (App u)
    /\ map child_tags (by_tag "article" (App u))
       = [[Some "h3"; Some "p"]; [Some "h3"; Some "p"]; [Some "h3"; Some "p"]]
    /\ map paragraphs_in (by_tag "article" (App u))
       = [["Step-by-step help with enrollment, deadlines, and prerequisites."];
          ["Find maps, offices, events, and student services across campus."];
          ["Resources tailored to support students from families and staff."]].
Proof.
  destruct u. eexists. split; [reflexivity |]. by_rendering tt.
Qed.

(** X10: no element of the page writes a prop name twice, so on every
    element of the page a prop has the value [v] exactly when the pair of
    its name and [v] is written on the element. *)
Theorem props_read_as_written (u : unit) (e : node) (k v : string) :
  In e (elements (App u)) ->
  distinct_names (props_of e) = true
  /\ (attr k e = Some v <-> In (k, v) (props_of e)).
Proof.
  intros Hin.
  assert (Hall : forallb (fun x => distinct_names (props_of x))
                         (elements (App u)) = true)
    by (destruct u; reflexivity).
  rewrite forallb_forall in Hall. specialize (Hall e Hin).
  split; [exact Hall |]. unfold attr. split.
  - apply lookup_in.
  - now apply in_lookup_distinct.
Qed.

Lemma props_read_as_written_witness :
  attr "alt"
    (Elem "img" [("src", "/vite.svg"); ("className", "logo"); ("alt", "Rufus AI logo")] [])
  = Some "Rufus AI logo".
Proof.
  assert (Hin : In (Elem "img" [("src", "/vite.svg"); ("className", "logo");
                                ("alt", "Rufus AI logo")] [])
                   (elements (App tt)))
    by (vm_compute; tauto).
  apply (proj2 (proj2 (props_read_as_written tt _ "alt" "Rufus AI logo" Hin))).
  simpl. tauto.
Defined.

(** X11: the first child of the header is the brand block; it holds the
    logo image first, then a [div] with the title "Rufus AI" as the page's
    [h1] and the tagline paragraph. *)
Theorem brand_block (u : unit) :
  exists h brand,
    headers (App u) = [h]
    /\ nth_error (children_of h) 0 = Some brand
    /\ filter (has_attr "className" "brand") (elements (App u)) = [brand]
    /\ child_tags brand = [Some "img"; Some "div"]
    /\ map tag_of (descendants brand) = [Some "img"; Some "div"; Some "h1"; Some "p"]
    /\ map textContent (headings_in brand) = ["Rufus AI"]
    /\ headings_in brand = by_tag "h1" (App u)
    /\ map (attr "className") (filter (has_tag "p") (descendants brand))
       = [Some "tagline"]
    /\ paragraphs_in brand
       = ["A helper for UC Merced students, parents, and faculty."].
Proof.
  destruct u. eexists; eexists.
  split; [reflexivity |]. split; [reflexivity |]. by_rendering tt.
Qed.

(** X12: the footer is the last child of the root and holds one paragraph,
    the contact line; the address in it is plain text: the footer has no
    link and no button. *)
Theorem footer_contact_line (u : unit) :
  exists f,
    by_tag "footer" (App u) = [f]
    /\ nth_error (children_of (App u)) 2 = Some f
    /\ length (children_of (App u)) = 3
    /\ child_tags f = [Some "p"]
    /\ paragraphs_in f
       = ["Built for UC Merced — prototype. Contact: rufus@example.edu"]
    /\ links_in f = []
    /\ buttons_in f = [].
Proof.
  destruct u. eexists. split; [reflexivity |]. by_rendering tt.
Qed.
